(** * element2image: rasterise a DOM element and copy or download it

    A shallow embedding of [src/utils/element2image.ts].  The three exported
    functions are straight-line glue over two libraries (html2canvas, jsPDF)
    and a handful of browser primitives.  The browser is modelled as an
    explicit [World] that the functions thread through a small
    state-and-rejection monad; the two libraries and the user agent's
    capabilities are the fields of a [Platform] record, over which the
    general statements are quantified. *)

From Stdlib Require Import String Ascii List Bool Arith NArith ZArith Floats Lia.
Import ListNotations.
Local Open Scope string_scope.

(** ** Values *)

(** DOM nodes are identified by a number; an element reference handed to the
    exported functions is [Some] node, or [None] for [null]/[undefined]. *)
Definition Node := nat.
Definition Element := Node.

(** The bitmap surface html2canvas produces. *)
Record Canvas := mkCanvas {
  cwidth : N;
  cheight : N;
  pixels : string
}.

Record Blob := mkBlob {
  btype : string;
  bdata : string
}.

(** [new ClipboardItem({ type: data })]: representations keyed by MIME type.
    The data is [None] when the script passed [null]. *)
Definition ClipboardItem := list (string * option Blob).

(** An [<a>] element.  [download] is [None] on user agents that do not
    implement the attribute (the property reads [undefined] there). *)
Record Anchor := mkAnchor {
  node : Node;
  href : string;
  download : option string
}.

Definition setHref (a : Anchor) (v : string) : Anchor :=
  mkAnchor (node a) v (download a).
Definition setDownload (a : Anchor) (v : string) : Anchor :=
  mkAnchor (node a) (href a) (Some v).

(** The second optional parameter of [downloadImage]: ['png' | 'jpg']. *)
Inductive FileExtension := png | jpg.

Definition extension (e : FileExtension) : string :=
  match e with png => "png" | jpg => "jpg" end.

(** What [pdf.getImageProperties] reports; JavaScript numbers are binary64. *)
Record ImageProperties := mkImageProperties {
  width : float;
  height : float
}.

(** One [addImage] call as recorded in the document. *)
Record Placement := mkPlacement {
  onPage : nat;
  imageData : string;
  format : string;
  atX : float;
  atY : float;
  drawnWidth : float;
  drawnHeight : float
}.

(** A jsPDF document: the number of pages and the images placed so far. *)
Record PdfDoc := mkPdfDoc {
  pages : nat;
  images : list Placement
}.

(** ** The browser *)

(** The only callback the module registers: the function literal handed to
    [canvas.toBlob] in [copyImage]. *)
Inductive Callback := CopyBlobToClipboard.

(** A queued task: a pending [toBlob] with the callback it will invoke. *)
Inductive Task := BlobTask (canvas : Canvas) (callback : Callback).

(** Calls that leave the script and reach the platform. *)
Inductive Event :=
| EvAppendChild (n : Node)
| EvRemoveChild (n : Node)
| EvClick (a : Anchor)
| EvWindowOpen (url : string)
| EvClipboardWrite (items : list ClipboardItem)
| EvPdfSave (doc : PdfDoc) (name : string).

Record World := mkWorld {
  body : list Node;             (* children of document.body, in order *)
  nextNode : Node;              (* identity of the next created element *)
  clipboard : list ClipboardItem;
  trace : list Event;
  tasks : list Task;            (* callbacks not yet run *)
  unhandled : list string       (* rejections nobody awaited *)
}.

Definition setBody (wd : World) (b : list Node) : World :=
  mkWorld b (nextNode wd) (clipboard wd) (trace wd) (tasks wd) (unhandled wd).
Definition setNextNode (wd : World) (n : Node) : World :=
  mkWorld (body wd) n (clipboard wd) (trace wd) (tasks wd) (unhandled wd).
Definition setClipboard (wd : World) (c : list ClipboardItem) : World :=
  mkWorld (body wd) (nextNode wd) c (trace wd) (tasks wd) (unhandled wd).
Definition emit (wd : World) (e : Event) : World :=
  mkWorld (body wd) (nextNode wd) (clipboard wd) (trace wd ++ [e]) (tasks wd)
          (unhandled wd).
Definition setTasks (wd : World) (t : list Task) : World :=
  mkWorld (body wd) (nextNode wd) (clipboard wd) (trace wd) t (unhandled wd).
Definition report (wd : World) (reason : string) : World :=
  mkWorld (body wd) (nextNode wd) (clipboard wd) (trace wd) (tasks wd)
          (unhandled wd ++ [reason]).

(** Every node of the document was created before: identities handed out by
    [createElement] are fresh. *)
Definition wellFormed (wd : World) : Prop :=
  Forall (fun n => n < nextNode wd) (body wd).

(** ** Asynchronous computations

    An [async] function either fulfils with a value or rejects with a
    reason; in both cases the world it leaves behind is kept. *)
Inductive Outcome (A : Type) : Type :=
| Fulfilled (value : A) (wd : World)
| Rejected (reason : string) (wd : World).
Arguments Fulfilled {A} value wd.
Arguments Rejected {A} reason wd.

Definition Async (A : Type) : Type := World -> Outcome A.

Definition ret {A} (a : A) : Async A := fun wd => Fulfilled a wd.

(** [bind] is one statement of an async function after another.  No turn of
    the event loop is taken inside it: a callback queued by [m] is still
    queued when [k] starts.  Where callbacks run between two calls, the
    runs are chained through [flushTasks] explicitly. *)
Definition bind {A B} (m : Async A) (k : A -> Async B) : Async B :=
  fun wd =>
    match m wd with
    | Fulfilled a wd' => k a wd'
    | Rejected r wd' => Rejected r wd'
    end.

Declare Scope async_scope.
Delimit Scope async_scope with async.
Notation "x <- m ;; k" := (bind m (fun x => k))
  (at level 61, m at next level, right associativity) : async_scope.
Notation "m ;; k" := (bind m (fun _ => k))
  (at level 61, right associativity) : async_scope.
Local Open Scope async_scope.

Definition finalWorld {A} (o : Outcome A) : World :=
  match o with Fulfilled _ wd => wd | Rejected _ wd => wd end.

Definition fulfilled {A} (o : Outcome A) : bool :=
  match o with Fulfilled _ _ => true | Rejected _ _ => false end.

(** ** Artifacts

    What a call hands to the user, read off the trace.  The name of an
    [ImageFile] is the name the script suggests, the anchor's [download]
    attribute; the name the browser saves the file under is [savedFiles],
    below.  The name of a [PdfFile] is the one passed to [pdf.save]. *)
Inductive Artifact :=
| ImageFile (name data : string)
| PdfFile (name : string) (doc : PdfDoc)
| ClipboardPayload (items : list ClipboardItem).

Definition artifactOf (e : Event) : list Artifact :=
  match e with
  | EvClick a =>
      match download a with
      | Some name => [ImageFile name (href a)]
      | None => []
      end
  | EvPdfSave doc name => [PdfFile name doc]
  | EvClipboardWrite items => [ClipboardPayload items]
  | EvAppendChild _ | EvRemoveChild _ | EvWindowOpen _ => []
  end.

Definition artifacts (t : list Event) : list Artifact := flat_map artifactOf t.

Definition isDomMutation (e : Event) : bool :=
  match e with EvAppendChild _ | EvRemoveChild _ => true | _ => false end.

Definition isClipboardWrite (e : Event) : bool :=
  match e with EvClipboardWrite _ => true | _ => false end.

Definition isClick (e : Event) : bool :=
  match e with EvClick _ => true | _ => false end.

Definition isWindowOpen (e : Event) : bool :=
  match e with EvWindowOpen _ => true | _ => false end.

Definition count (p : Event -> bool) (t : list Event) : nat :=
  length (filter p t).

(** The format tag of a [data:] URL: the media type between the scheme and
    the first [;] or [,]. *)
Fixpoint stripPrefix (p s : string) : option string :=
  match p, s with
  | EmptyString, _ => Some s
  | String a p', String b s' =>
      if Ascii.eqb a b then stripPrefix p' s' else None
  | String _ _, EmptyString => None
  end.

Fixpoint takeUntil (stop : ascii -> bool) (s : string) : string :=
  match s with
  | EmptyString => EmptyString
  | String c s' => if stop c then EmptyString else String c (takeUntil stop s')
  end.

Definition formatTag (url : string) : option string :=
  match stripPrefix "data:" url with
  | Some rest =>
      Some (takeUntil (fun c => Ascii.eqb c ";" || Ascii.eqb c ",") rest)
  | None => None
  end.

(** ** The platform *)

Record Platform := mkPlatform {
  (** html2canvas: a promise of a canvas, [inl reason] when it rejects. *)
  html2canvas : option Element -> string + Canvas;
  (** Image types, besides the mandatory PNG, the canvas can be serialised
      to. *)
  supportsType : string -> bool;
  (** The encoded bytes (base64) of a bitmap in a supported type. *)
  serialize : Canvas -> string -> string;
  (** Whether anchors implement the [download] attribute. *)
  anchorDownload : bool;
  (** Whether the page may write to the clipboard. *)
  clipboardPermitted : bool;
  (** jsPDF: [pdf.internal.pageSize.getWidth()] of a fresh document. *)
  pageWidth : float;
  (** jsPDF: [pdf.getImageProperties], [inl reason] when it throws (it
      does on data that is no image, such as ["data:,"]). *)
  getImageProperties : string -> string + ImageProperties;
  (** The largest side and the largest area, in pixels, of a canvas the
      user agent can serialise. *)
  maxCanvasSide : N;
  maxCanvasArea : N;
  (** html2canvas: how many scratch nodes it appends to [document.body]
      while it renders, each removed again before its promise settles. *)
  scratchNodes : nat;
  (** The file name a download is saved under, from the suggested name
      and the downloaded data. *)
  savedAs : string -> string -> string
}.

(** The files saved by the browser: each offered image under the name the
    browser makes of the suggested one. *)
Definition savedFile (P : Platform) (a : Artifact) : list (string * string) :=
  match a with
  | ImageFile name data => [(savedAs P name data, data)]
  | PdfFile _ _ | ClipboardPayload _ => []
  end.

Definition savedFiles (P : Platform) (t : list Event)
  : list (string * string) :=
  flat_map (savedFile P) (artifacts t).


Section Program.

Variable P : Platform.

(** *** Canvas serialisation

    [toDataURL(type)] and [toBlob(callback)] follow the HTML canvas
    interface: a bitmap without pixels, or one beyond the size the user
    agent can handle, serialises to ["data:,"] (a [null] blob), a type the
    user agent cannot encode falls back to PNG, and the result is tagged
    with the type that was really used. *)
Definition serializationType (type : string) : string :=
  if String.eqb type "image/png" || supportsType P type
  then type else "image/png".

(** A bitmap has pixels when neither of its dimensions is zero. *)
Definition hasPixels (c : Canvas) : bool :=
  negb (N.eqb (cwidth c) 0 || N.eqb (cheight c) 0).

Definition withinLimits (c : Canvas) : bool :=
  N.leb (cwidth c) (maxCanvasSide P) && N.leb (cheight c) (maxCanvasSide P)
  && N.leb (cwidth c * cheight c) (maxCanvasArea P).

Definition serializable (c : Canvas) : bool :=
  hasPixels c && withinLimits c.

Definition toDataURL (c : Canvas) (type : string) : string :=
  if serializable c
  then "data:" ++ serializationType type ++ ";base64,"
         ++ serialize P c (serializationType type)
  else "data:,".

Definition blobOf (c : Canvas) : option Blob :=
  if serializable c
  then Some (mkBlob "image/png" (serialize P c "image/png"))
  else None.

(** [canvas.toBlob(callback)] returns at once; the callback runs in a later
    task. *)
Definition toBlob (c : Canvas) (k : Callback) : Async unit :=
  fun wd => Fulfilled tt (setTasks wd (tasks wd ++ [BlobTask c k])).

(** *** DOM and window primitives *)


Definition rasterize (element : option Element) : Async Canvas :=
  fun wd =>
    match html2canvas P element with
    | inr canvas => Fulfilled canvas wd
    | inl reason => Rejected reason wd
    end.

(** [document.createElement('a')]: a detached anchor with a new identity. *)
Definition createElement_a : Async Anchor :=
  fun wd =>
    Fulfilled
      (mkAnchor (nextNode wd) EmptyString
         (if anchorDownload P then Some EmptyString else None))
      (setNextNode wd (S (nextNode wd))).

(** [document.body.appendChild(n)]: a node already in the tree is moved. *)
Definition appendChild (n : Node) : Async unit :=
  fun wd =>
    Fulfilled tt
      (emit (setBody wd (remove Nat.eq_dec n (body wd) ++ [n]))
            (EvAppendChild n)).

(** [document.body.removeChild(n)]: throws when [n] is not a child. *)
Definition removeChild (n : Node) : Async unit :=
  fun wd =>
    if in_dec Nat.eq_dec n (body wd)
    then Fulfilled tt
           (emit (setBody wd (remove Nat.eq_dec n (body wd)))
                 (EvRemoveChild n))
    else Rejected "NotFoundError" wd.

Definition click (a : Anchor) : Async unit :=
  fun wd => Fulfilled tt (emit wd (EvClick a)).

Definition windowOpen (url : string) : Async unit :=
  fun wd => Fulfilled tt (emit wd (EvWindowOpen url)).

(** [navigator.clipboard.write(items)]: the call is made in any case; the
    promise it returns rejects without permission or when a representation
    is not a blob, and only otherwise the clipboard changes. *)
Definition writable (item : ClipboardItem) : bool :=
  forallb (fun r => match snd r with Some _ => true | None => false end) item.

Definition clipboardWrite (items : list ClipboardItem) : Async (string + unit) :=
  fun wd =>
    let wd' := emit wd (EvClipboardWrite items) in
    if negb (clipboardPermitted P) then Fulfilled (inl "NotAllowedError") wd'
    else if forallb writable items
         then Fulfilled (inr tt) (setClipboard wd' items)
         else Fulfilled (inl "DataError") wd'.

(** A promise the script drops: its rejection goes to the runtime. *)
Definition forget (p : string + unit) : Async unit :=
  fun wd =>
    match p with
    | inr _ => Fulfilled tt wd
    | inl reason => Fulfilled tt (report wd reason)
    end.

(** *** jsPDF *)

(** [new jsPDF()]: a document open on its first page. *)
Definition jsPDF : PdfDoc := mkPdfDoc 1 [].

Definition addImage (pdf : PdfDoc) (data fmt : string)
    (x y width height : float) : PdfDoc :=
  mkPdfDoc (pages pdf)
           (images pdf ++ [mkPlacement (pages pdf) data fmt x y width height]).

Definition save (pdf : PdfDoc) (name : string) : Async unit :=
  fun wd => Fulfilled tt (emit wd (EvPdfSave pdf name)).

(** [pdf.getImageProperties(data)]: an exception rejects the async
    function that made the call. *)
Definition imageProperties (data : string) : Async ImageProperties :=
  fun wd =>
    match getImageProperties P data with
    | inr properties => Fulfilled properties wd
    | inl reason => Rejected reason wd
    end.

(** *** The exported functions *)

(** The function literal of [copyImage], lines 39-42:
    [const item = new ClipboardItem({ "image/png": blob! })]
    [navigator.clipboard.write([item])].
    The [!] is erased by the compiler: a [null] blob goes into the item. *)
Definition runCallback (k : Callback) (blob : option Blob) : Async unit :=
  match k with
  | CopyBlobToClipboard =>
      let item : ClipboardItem := [("image/png", blob)] in
      p <- clipboardWrite [item] ;;
      forget p
  end.

Definition copyImage (element : option Element) : Async unit :=
  canvas <- rasterize element ;;
  toBlob canvas CopyBlobToClipboard.

Definition orDefault {A} (d : A) (o : option A) : A :=
  match o with Some a => a | None => d end.

Definition downloadImage (element : option Element)
    (fileName : option string) (fileExtension : option FileExtension)
  : Async unit :=
  let fileName := orDefault "image" fileName in
  let fileExtension := orDefault png fileExtension in
  canvas <- rasterize element ;;
  let data := toDataURL canvas ("image/" ++ extension fileExtension) in
  link <- createElement_a ;;
  match download link with
  | Some _ =>
      let link := setHref link data in
      let link := setDownload link (fileName ++ "." ++ extension fileExtension) in
      appendChild (node link) ;;
      click link ;;
      removeChild (node link)
  | None =>
      windowOpen data
  end.

(** The anchor [downloadImage] clicks: node [n], the encoded canvas as its
    target, the file name as its [download] attribute. *)
Definition linkOf (canvas : Canvas) (n : Node) (fileName : option string)
    (fileExtension : option FileExtension) : Anchor :=
  mkAnchor n
    (toDataURL canvas ("image/" ++ extension (orDefault png fileExtension)))
    (Some (orDefault "image" fileName ++ "."
             ++ extension (orDefault png fileExtension))).

Definition downloadPdf (element : option Element) (fileName : option string)
  : Async unit :=
  let fileName := orDefault "image" fileName in
  canvas <- rasterize element ;;
  let data := toDataURL canvas "image/png" in
  let pdf := jsPDF in
  imgProperties <- imageProperties data ;;
  let pdfWidth := pageWidth P in
  let pdfHeight := (height imgProperties * pdfWidth / width imgProperties)%float in
  let pdf := addImage pdf data "PNG" 0%float 0%float pdfWidth pdfHeight in
  save pdf (fileName ++ ".pdf").


(** *** The event loop *)

(** Runs one queued task; an exception escaping the callback is reported. *)
Definition runTask (t : Task) (wd : World) : World :=
  match t with
  | BlobTask canvas k =>
      match runCallback k (blobOf canvas) wd with
      | Fulfilled _ wd' => wd'
      | Rejected reason wd' => report wd' reason
      end
  end.

(** Runs the tasks pending in [wd], oldest first. *)
Definition flushTasks (wd : World) : World :=
  fold_left (fun acc t => runTask t acc) (tasks wd) (setTasks wd []).

End Program.

(** ** Sample platforms

    Concrete user agents on which the statements below are exercised. *)

Definition sampleCanvas : Canvas := mkCanvas 300 150 "qr".

Definition emptyCanvas : Canvas := mkCanvas 0 0 EmptyString.

(** File names as Chromium makes them from a suggested name: leading dots
    are dropped, path separators become underscores, and a name left
    without extension gets the one of the data's media type. *)
Fixpoint trimLeadingDots (s : string) : string :=
  match s with
  | String c s' => if Ascii.eqb c "." then trimLeadingDots s' else s
  | EmptyString => EmptyString
  end.

Fixpoint replaceSeparators (s : string) : string :=
  match s with
  | String c s' =>
      String (if Ascii.eqb c "/" || Ascii.eqb c (ascii_of_nat 92)
              then "_"%char else c)
             (replaceSeparators s')
  | EmptyString => EmptyString
  end.

Fixpoint hasDot (s : string) : bool :=
  match s with
  | String c s' => Ascii.eqb c "." || hasDot s'
  | EmptyString => false
  end.

Definition extensionOfData (data : string) : string :=
  match formatTag data with
  | Some type =>
      if String.eqb type "image/png" then ".png"
      else if String.eqb type "image/jpeg" then ".jpg"
      else if String.eqb type "image/webp" then ".webp"
      else EmptyString
  | None => EmptyString
  end.

Definition chromiumFileName (name data : string) : string :=
  let safe := replaceSeparators (trimLeadingDots name) in
  if hasDot safe then safe else safe ++ extensionOfData data.

(** A current browser: html2canvas rejects a missing element and uses
    three scratch nodes, the canvas encodes PNG, JPEG and WebP up to 65535
    pixels a side and 268435456 pixels in all, anchors implement
    [download], jsPDF reads any image but the empty data URL, and an A4
    document is 210.0015555555555 mm wide (0x1.a400cbe3c879ep+7). *)
Definition browser : Platform :=
  mkPlatform
    (fun e => match e with
              | Some _ => inr sampleCanvas
              | None => inl "Invalid element provided as first argument"
              end)
    (fun t => String.eqb t "image/jpeg" || String.eqb t "image/webp")
    (fun c t => pixels c)
    true true 0x1.a400cbe3c879ep+7%float
    (fun data =>
       if String.eqb data "data:,"
       then inl "addImage does not support files of type 'UNKNOWN'"
       else inr (mkImageProperties 300%float 150%float))
    65535 268435456 3 chromiumFileName.

(** [P] with another rasteriser, all else equal. *)
Definition withRasterizer (P : Platform)
    (rasterizer : option Element -> string + Canvas) : Platform :=
  mkPlatform rasterizer (supportsType P) (serialize P) (anchorDownload P)
             (clipboardPermitted P) (pageWidth P) (getImageProperties P)
             (maxCanvasSide P) (maxCanvasArea P) (scratchNodes P) (savedAs P).

(** [P] with or without the [download] attribute on anchors, all else
    equal. *)
Definition withAnchorDownload (P : Platform) (supported : bool) : Platform :=
  mkPlatform (html2canvas P) (supportsType P) (serialize P) supported
             (clipboardPermitted P) (pageWidth P) (getImageProperties P)
             (maxCanvasSide P) (maxCanvasArea P) (scratchNodes P) (savedAs P).

(** The same browser without the [download] attribute. *)
Definition legacyBrowser : Platform := withAnchorDownload browser false.

(** The same browser rendering an element without area. *)
Definition collapsedBrowser : Platform :=
  withRasterizer browser (fun _ => inr emptyCanvas).

(** A canvas taller than the browser can serialise. *)
Definition tallCanvas : Canvas := mkCanvas 10 70000 "qr".

(** The same browser rendering a very tall element. *)
Definition tallBrowser : Platform :=
  withRasterizer browser (fun _ => inr tallCanvas).

(** [P] with clipboard access granted or denied, all else equal. *)
Definition withClipboardPermission (P : Platform) (granted : bool) : Platform :=
  mkPlatform (html2canvas P) (supportsType P) (serialize P) (anchorDownload P)
             granted (pageWidth P) (getImageProperties P)
             (maxCanvasSide P) (maxCanvasArea P) (scratchNodes P) (savedAs P).

(** The same browser with clipboard access denied. *)
Definition lockedBrowser : Platform := withClipboardPermission browser false.

(** A document with two elements in its body. *)
Definition page : World := mkWorld [0; 1] 2 [] [] [] [].

(** The same browser with a rasteriser that also rejects elements that are
    not in the document [page] (nodes 2 and up). *)
Definition strictBrowser : Platform :=
  withRasterizer browser
    (fun e => match e with
              | Some n => if Nat.ltb n 2 then inr sampleCanvas
                          else inl "Unable to find element in cloned iframe"
              | None => inl "Invalid element provided as first argument"
              end).

(** The clipboard write a queued task makes when it runs. *)
Definition taskWrite (P : Platform) (t : Task) : Event :=
  match t with
  | BlobTask canvas CopyBlobToClipboard =>
      EvClipboardWrite [[("image/png", blobOf P canvas)]]
  end.

(** ** Properties *)

(** *** Lists and traces *)

Lemma remove_fresh (n : Node) (l : list Node) :
  ~ In n l -> remove Nat.eq_dec n l = l.
Proof.
  induction l as [|m l IH]; simpl; intros Hn; [reflexivity|].
  destruct (Nat.eq_dec n m) as [->|_].
  - exfalso. apply Hn. now left.
  - f_equal. apply IH. intros Hin. apply Hn. now right.
Qed.

Lemma remove_appended (n : Node) (l : list Node) :
  remove Nat.eq_dec n (remove Nat.eq_dec n l ++ [n]) = remove Nat.eq_dec n l.
Proof.
  rewrite remove_app. simpl. destruct (Nat.eq_dec n n) as [_|Hne]; [|easy].
  rewrite app_nil_r. apply remove_fresh, remove_In.
Qed.

Lemma wellFormed_fresh (wd : World) :
  wellFormed wd -> ~ In (nextNode wd) (body wd).
Proof.
  unfold wellFormed. rewrite Forall_forall. intros Hwf Hin.
  specialize (Hwf _ Hin). lia.
Qed.

Lemma artifacts_app (t u : list Event) :
  artifacts (t ++ u) = (artifacts t ++ artifacts u)%list.
Proof. unfold artifacts. apply flat_map_app. Qed.

Lemma count_app (p : Event -> bool) (t u : list Event) :
  count p (t ++ u) = count p t + count p u.
Proof. unfold count. now rewrite filter_app, length_app. Qed.

(** *** One step of [downloadImage] at a time *)

Section DownloadImage.

Variable P : Platform.
Variables (element : option Element) (canvas : Canvas).
Hypothesis rasterizable : html2canvas P element = inr canvas.

Lemma downloadImage_anchor_path fileName fileExtension (wd : World) :
  anchorDownload P = true ->
  downloadImage P element fileName fileExtension wd =
  Fulfilled tt
    (mkWorld (remove Nat.eq_dec (nextNode wd) (body wd)) (S (nextNode wd))
       (clipboard wd)
       (trace wd ++ [EvAppendChild (nextNode wd);
                     EvClick (linkOf P canvas (nextNode wd) fileName fileExtension);
                     EvRemoveChild (nextNode wd)])
       (tasks wd) (unhandled wd)).
Proof.
  intros Hsup.
  unfold downloadImage, bind, rasterize, createElement_a.
  rewrite rasterizable, Hsup. cbn [download node setDownload setHref].
  unfold appendChild, click, removeChild, emit, setBody, setNextNode.
  cbn [body nextNode clipboard trace tasks unhandled].
  destruct (in_dec Nat.eq_dec _ _) as [_|Hout].
  - rewrite remove_appended, <- !app_assoc. reflexivity.
  - exfalso. apply Hout, in_or_app. right. now left.
Qed.

Lemma downloadImage_window_path fileName fileExtension (wd : World) :
  anchorDownload P = false ->
  downloadImage P element fileName fileExtension wd =
  Fulfilled tt
    (mkWorld (body wd) (S (nextNode wd)) (clipboard wd)
       (trace wd ++ [EvWindowOpen
          (toDataURL P canvas
             ("image/" ++ extension (orDefault png fileExtension)))])
       (tasks wd) (unhandled wd)).
Proof.
  intros Hsup.
  unfold downloadImage, bind, rasterize, createElement_a.
  rewrite rasterizable, Hsup. reflexivity.
Qed.

End DownloadImage.

(** *** Canvas serialisation *)

(** A type the canvas cannot encode is served as PNG, and tagged so. *)
Lemma toDataURL_falls_back_to_png (P : Platform) (c : Canvas) (type : string) :
  serializable P c = true ->
  supportsType P type = false ->
  formatTag (toDataURL P c type) = Some "image/png".
Proof.
  intros Hpx Hno. unfold toDataURL, serializationType. rewrite Hpx, Hno.
  destruct (String.eqb type "image/png") eqn:Heq; simpl.
  - apply String.eqb_eq in Heq. subst type. reflexivity.
  - reflexivity.
Qed.

(** The registered JPEG type is honoured wherever the canvas encodes it. *)
Lemma toDataURL_jpeg (P : Platform) (c : Canvas) :
  serializable P c = true ->
  supportsType P "image/jpeg" = true ->
  formatTag (toDataURL P c "image/jpeg") = Some "image/jpeg".
Proof.
  intros Hpx Hyes. unfold toDataURL, serializationType.
  rewrite Hpx, Hyes. reflexivity.
Qed.

(** *** downloadImage *)

Lemma savedFiles_app (P : Platform) (t u : list Event) :
  savedFiles P (t ++ u) = (savedFiles P t ++ savedFiles P u)%list.
Proof. unfold savedFiles. now rewrite artifacts_app, flat_map_app. Qed.

(** C3, as the code has it: when the element rasterises and anchors
    implement [download], a call offers exactly one file, and the name it
    suggests for it is exactly the file name, a dot and the format:
    "image.png" with the defaults, "image.jpg" for jpg without a file
    name, the given name followed by ".png" or ".jpg" otherwise.  The
    browser saves the file under the name it makes of the suggested one,
    hence under the suggested name itself whenever it keeps that name. *)
Theorem downloadImage_file_name (P : Platform) (element : option Element)
    (canvas : Canvas) (fileName : option string)
    (fileExtension : option FileExtension) (wd : World) :
  html2canvas P element = inr canvas ->
  anchorDownload P = true ->
  let suggested :=
    match fileName, fileExtension with
    | None, None | None, Some png => "image.png"
    | None, Some jpg => "image.jpg"
    | Some name, None | Some name, Some png => name ++ ".png"
    | Some name, Some jpg => name ++ ".jpg"
    end in
  let data :=
    toDataURL P canvas
      match fileExtension with
      | Some jpg => "image/jpg"
      | Some png | None => "image/png"
      end in
  exists wd',
    downloadImage P element fileName fileExtension wd = Fulfilled tt wd' /\
    artifacts (trace wd') =
    (artifacts (trace wd) ++ [ImageFile suggested data])%list /\
    savedFiles P (trace wd') =
    (savedFiles P (trace wd) ++ [(savedAs P suggested data, data)])%list /\
    (savedAs P suggested data = suggested ->
     savedFiles P (trace wd') =
     (savedFiles P (trace wd) ++ [(suggested, data)])%list).
Proof.
  intros Hok Hsup suggested data.
  assert (Hsame :
    linkOf P canvas (nextNode wd) fileName fileExtension =
    mkAnchor (nextNode wd) data (Some suggested)).
  { subst suggested data. unfold linkOf.
    destruct fileName as [name|], fileExtension as [[|]|]; reflexivity. }
  eexists. split.
  - apply (downloadImage_anchor_path P element canvas Hok); exact Hsup.
  - cbn [trace]. rewrite Hsame, savedFiles_app, artifacts_app.
    repeat split. intros Hkept. cbn. now rewrite Hkept.
Qed.

Lemma downloadImage_file_name_witness :
  exists wd',
    downloadImage browser (Some 0) (Some "QRCode") (Some jpg) page =
    Fulfilled tt wd' /\
    artifacts (trace wd') =
    [ImageFile "QRCode.jpg" "data:image/png;base64,qr"] /\
    savedFiles browser (trace wd') =
    [("QRCode.jpg", "data:image/png;base64,qr")] /\
    ("QRCode.jpg" = "QRCode.jpg" ->
     savedFiles browser (trace wd') =
     [("QRCode.jpg", "data:image/png;base64,qr")]).
Proof.
  exact (downloadImage_file_name browser (Some 0) sampleCanvas (Some "QRCode")
           (Some jpg) page eq_refl eq_refl).
Defined.

(** C3, as stated, fails: for the file name "a/b" and format png the
    browser does not save a file named "a/b.png" but one named "a_b.png". *)
Lemma downloadImage_file_name_sanitised :
  exists wd',
    downloadImage browser (Some 0) (Some "a/b") (Some png) page =
    Fulfilled tt wd' /\
    artifacts (trace wd') =
    [ImageFile "a/b.png" "data:image/png;base64,qr"] /\
    savedFiles browser (trace wd') =
    [("a_b.png", "data:image/png;base64,qr")] /\
    "a_b.png" <> "a/b" ++ "." ++ extension png.
Proof.
  eexists. split; [|split; [|split]].
  - apply (downloadImage_anchor_path browser (Some 0) sampleCanvas eq_refl).
    reflexivity.
  - reflexivity.
  - reflexivity.
  - discriminate.
Qed.

(** C1: on a browser whose canvas encodes PNG, JPEG and WebP, downloadImage
    with format jpg downloads a file named "image.jpg" whose data is tagged
    image/png: the type requested from the canvas is "image/jpg", which is
    not the JPEG media type, so the canvas falls back to PNG. *)
Theorem downloadImage_jpg_is_png_data :
  exists wd' data,
    downloadImage browser (Some 0) None (Some jpg) page = Fulfilled tt wd' /\
    artifacts (trace wd') = [ImageFile "image.jpg" data] /\
    data = toDataURL browser sampleCanvas "image/jpg" /\
    formatTag data = Some "image/png".
Proof.
  eexists. eexists. split; [|split; [|split]].
  - apply (downloadImage_anchor_path browser (Some 0) sampleCanvas eq_refl).
    reflexivity.
  - reflexivity.
  - reflexivity.
  - apply toDataURL_falls_back_to_png; reflexivity.
Qed.

(** C7: for an element that rasterises, the call opens the encoded image in
    a new browsing context and clicks nothing exactly when anchors do not
    implement [download]; exactly when they do, it clicks the anchor once,
    which downloads the file, and opens no browsing context. *)
Theorem downloadImage_fallback (P : Platform) (element : option Element)
    (canvas : Canvas) (fileName : option string)
    (fileExtension : option FileExtension) (wd : World) :
  html2canvas P element = inr canvas ->
  exists wd' evs,
    downloadImage P element fileName fileExtension wd = Fulfilled tt wd' /\
    trace wd' = (trace wd ++ evs)%list /\
    (anchorDownload P = false <->
       evs = [EvWindowOpen
                (toDataURL P canvas
                   ("image/" ++ extension (orDefault png fileExtension)))] /\
       count isClick evs = 0 /\ artifacts evs = []) /\
    (anchorDownload P = true <->
       count isClick evs = 1 /\ count isWindowOpen evs = 0 /\
       artifacts evs =
       [ImageFile (orDefault "image" fileName ++ "."
                     ++ extension (orDefault png fileExtension))
          (toDataURL P canvas
             ("image/" ++ extension (orDefault png fileExtension)))]).
Proof.
  intros Hok. destruct (anchorDownload P) eqn:Hsup.
  - eexists. eexists. split; [|split; [|split]].
    + apply (downloadImage_anchor_path P element canvas Hok); exact Hsup.
    + reflexivity.
    + split; [discriminate|]. intros (Hevs & _). discriminate Hevs.
    + split; [|reflexivity]. intros _. repeat split.
  - eexists. eexists. split; [|split; [|split]].
    + apply (downloadImage_window_path P element canvas Hok); exact Hsup.
    + reflexivity.
    + split; [|reflexivity]. intros _. repeat split.
    + split; [discriminate|]. intros (Hclicks & _). discriminate Hclicks.
Qed.

Lemma downloadImage_fallback_witness :
  exists wd' evs,
    downloadImage legacyBrowser (Some 0) (Some "QRCode") (Some png) page =
    Fulfilled tt wd' /\
    trace wd' = evs /\
    (false = false <->
       evs = [EvWindowOpen "data:image/png;base64,qr"] /\
       count isClick evs = 0 /\ artifacts evs = []) /\
    (false = true <->
       count isClick evs = 1 /\ count isWindowOpen evs = 0 /\
       artifacts evs = [ImageFile "QRCode.png" "data:image/png;base64,qr"]).
Proof.
  exact (downloadImage_fallback legacyBrowser (Some 0) sampleCanvas
           (Some "QRCode") (Some png) page eq_refl).
Defined.

(** C4: on the anchor path, from a well-formed document, the download
    anchor is a new node that is in the document neither before the call
    nor after it; within the call it is appended, clicked and removed, in
    that order, and the document's children are what they were. *)
Theorem downloadImage_anchor_scoped (P : Platform) (element : option Element)
    (canvas : Canvas) (fileName : option string)
    (fileExtension : option FileExtension) (wd : World) :
  html2canvas P element = inr canvas ->
  anchorDownload P = true ->
  wellFormed wd ->
  exists wd' link,
    downloadImage P element fileName fileExtension wd = Fulfilled tt wd' /\
    node link = nextNode wd /\
    ~ In (node link) (body wd) /\
    ~ In (node link) (body wd') /\
    body wd' = body wd /\
    trace wd' =
    (trace wd ++ [EvAppendChild (node link); EvClick link;
                  EvRemoveChild (node link)])%list /\
    wellFormed wd'.
Proof.
  intros Hok Hsup Hwf.
  pose proof (wellFormed_fresh wd Hwf) as Hfresh.
  exists (mkWorld (body wd) (S (nextNode wd)) (clipboard wd)
            (trace wd ++ [EvAppendChild (nextNode wd);
                          EvClick (linkOf P canvas (nextNode wd) fileName
                                     fileExtension);
                          EvRemoveChild (nextNode wd)])
            (tasks wd) (unhandled wd)).
  exists (linkOf P canvas (nextNode wd) fileName fileExtension).
  split; [|repeat split; try assumption].
  - rewrite (downloadImage_anchor_path P element canvas Hok) by exact Hsup.
    now rewrite (remove_fresh _ _ Hfresh).
  - unfold wellFormed in *. cbn [body nextNode].
    eapply Forall_impl; [|exact Hwf]. cbn. intros n Hn. lia.
Qed.

Lemma page_wellFormed : wellFormed page.
Proof. unfold wellFormed, page; cbn. repeat constructor. Defined.

Lemma downloadImage_anchor_scoped_witness :
  exists wd' link,
    downloadImage browser (Some 0) None None page = Fulfilled tt wd' /\
    node link = 2 /\
    ~ In (node link) [0; 1] /\
    ~ In (node link) (body wd') /\
    body wd' = [0; 1] /\
    trace wd' = [EvAppendChild (node link); EvClick link;
                 EvRemoveChild (node link)] /\
    wellFormed wd'.
Proof.
  exact (downloadImage_anchor_scoped browser (Some 0) sampleCanvas None None
           page eq_refl eq_refl page_wellFormed).
Defined.

(** *** copyImage *)

Section CopyImage.

Variable P : Platform.

(** The call itself only queues the [toBlob] task. *)
Lemma copyImage_queues (element : option Element) (canvas : Canvas)
    (wd : World) :
  html2canvas P element = inr canvas ->
  copyImage P element wd =
  Fulfilled tt (setTasks wd (tasks wd ++ [BlobTask canvas CopyBlobToClipboard])).
Proof.
  intros Hok. unfold copyImage, bind, rasterize. now rewrite Hok.
Qed.

(** The callback writes whatever it is given, [null] included. *)
Lemma runCallback_writes (blob : option Blob) (wd : World) :
  exists wd',
    runCallback P CopyBlobToClipboard blob wd = Fulfilled tt wd' /\
    trace wd' = (trace wd ++ [EvClipboardWrite [[("image/png", blob)]]])%list /\
    body wd' = body wd /\ nextNode wd' = nextNode wd /\ tasks wd' = tasks wd /\
    clipboard wd' =
      (if clipboardPermitted P
       then match blob with
            | Some _ => [[("image/png", blob)]]
            | None => clipboard wd
            end
       else clipboard wd) /\
    unhandled wd' =
      (if clipboardPermitted P
       then match blob with
            | Some _ => unhandled wd
            | None => unhandled wd ++ ["DataError"]
            end
       else unhandled wd ++ ["NotAllowedError"])%list.
Proof.
  unfold runCallback, bind, clipboardWrite, forget.
  destruct (clipboardPermitted P); cbn [negb].
  - destruct blob as [b|]; cbn; eexists; repeat split.
  - eexists; repeat split.
Qed.

Lemma flush_after_copyImage (canvas : Canvas) (wd : World) :
  tasks wd = [] ->
  flushTasks P
    (setTasks wd (tasks wd ++ [BlobTask canvas CopyBlobToClipboard])) =
  finalWorld (runCallback P CopyBlobToClipboard (blobOf P canvas)
                (setTasks wd [])).
Proof.
  intros Hidle. unfold flushTasks. cbn [tasks setTasks]. rewrite Hidle.
  cbn [app fold_left runTask].
  destruct (runCallback_writes (blobOf P canvas)
              (setTasks (mkWorld (body wd) (nextNode wd) (clipboard wd)
                           (trace wd) [BlobTask canvas CopyBlobToClipboard]
                           (unhandled wd)) [])) as (wd' & Hrun & _).
  unfold setTasks in *. cbn [body nextNode clipboard trace unhandled] in *.
  now rewrite Hrun.
Qed.

End CopyImage.





(** C6: copyImage fulfils with the unit value and the same world whether
    clipboard access is granted or denied; when it completes nothing has
    been written yet (the write is a queued task).  Once the task has run,
    a granted write of a blob has changed the clipboard and nothing else
    of the document, and a denied write has changed nothing but the
    runtime's list of unhandled rejections. *)
Theorem copyImage_fire_and_forget (P : Platform) (element : option Element)
    (canvas : Canvas) (wd : World) :
  html2canvas P element = inr canvas ->
  tasks wd = [] ->
  exists wd',
    (forall granted,
       copyImage (withClipboardPermission P granted) element wd =
       Fulfilled tt wd') /\
    copyImage P element wd = Fulfilled tt wd' /\
    trace wd' = trace wd /\ clipboard wd' = clipboard wd /\
    tasks wd' = [BlobTask canvas CopyBlobToClipboard] /\
    (forall blob, blobOf P canvas = Some blob ->
       flushTasks (withClipboardPermission P true) wd' =
       mkWorld (body wd) (nextNode wd) [[("image/png", Some blob)]]
         (trace wd ++ [EvClipboardWrite [[("image/png", Some blob)]]])
         [] (unhandled wd)) /\
    flushTasks (withClipboardPermission P false) wd' =
    mkWorld (body wd) (nextNode wd) (clipboard wd)
      (trace wd ++ [EvClipboardWrite [[("image/png", blobOf P canvas)]]])
      [] (unhandled wd ++ ["NotAllowedError"]).
Proof.
  intros Hok Hidle.
  exists (setTasks wd (tasks wd ++ [BlobTask canvas CopyBlobToClipboard])).
  split; [|split; [|split; [|split; [|split; [|split]]]]].
  - intros granted. now apply copyImage_queues.
  - now apply copyImage_queues.
  - reflexivity.
  - reflexivity.
  - cbn [tasks setTasks]. now rewrite Hidle.
  - intros blob Hblob. rewrite flush_after_copyImage by exact Hidle.
    change (blobOf (withClipboardPermission P true) canvas)
      with (blobOf P canvas).
    rewrite Hblob. reflexivity.
  - rewrite flush_after_copyImage by exact Hidle. reflexivity.
Qed.

Lemma copyImage_fire_and_forget_witness :
  exists wd',
    (forall granted,
       copyImage (withClipboardPermission lockedBrowser granted) (Some 0) page
       = Fulfilled tt wd') /\
    copyImage lockedBrowser (Some 0) page = Fulfilled tt wd' /\
    trace wd' = [] /\ clipboard wd' = [] /\
    tasks wd' = [BlobTask sampleCanvas CopyBlobToClipboard] /\
    (forall blob, Some (mkBlob "image/png" "qr") = Some blob ->
       flushTasks (withClipboardPermission lockedBrowser true) wd' =
       mkWorld [0; 1] 2 [[("image/png", Some blob)]]
         [EvClipboardWrite [[("image/png", Some blob)]]] [] []) /\
    flushTasks (withClipboardPermission lockedBrowser false) wd' =
    mkWorld [0; 1] 2 []
      [EvClipboardWrite [[("image/png", Some (mkBlob "image/png" "qr"))]]]
      [] ["NotAllowedError"].
Proof.
  exact (copyImage_fire_and_forget lockedBrowser (Some 0) sampleCanvas page
           eq_refl eq_refl).
Defined.

(** C10: the callback of copyImage has no guard on its blob: for every
    blob, [null] included, it fulfils after one clipboard write of an
    item built from that blob.  So when the canvas yields no blob, the
    call and its callback run to completion and the write is made with an
    item whose "image/png" entry is [null]. *)
Theorem copyImage_null_blob_reaches_write (P : Platform)
    (element : option Element) (canvas : Canvas) (wd : World) :
  html2canvas P element = inr canvas ->
  blobOf P canvas = None ->
  tasks wd = [] ->
  (forall blob wd0, exists wd1,
     runCallback P CopyBlobToClipboard blob wd0 = Fulfilled tt wd1 /\
     trace wd1 = (trace wd0 ++ [EvClipboardWrite [[("image/png", blob)]]])%list) /\
  exists wd',
    copyImage P element wd = Fulfilled tt wd' /\
    trace (flushTasks P wd') =
    (trace wd ++ [EvClipboardWrite [[("image/png", None)]]])%list /\
    artifacts (trace (flushTasks P wd')) =
    (artifacts (trace wd) ++ [ClipboardPayload [[("image/png", None)]]])%list.
Proof.
  intros Hok Hnull Hidle. split.
  - intros blob wd0.
    destruct (runCallback_writes P blob wd0) as (wd1 & Hrun & Htrace & _).
    now exists wd1.
  - destruct (runCallback_writes P (blobOf P canvas) (setTasks wd []))
      as (wd2 & Hrun & Htrace & _).
    eexists. split; [apply copyImage_queues; exact Hok|].
    rewrite flush_after_copyImage by exact Hidle. rewrite Hrun.
    cbn [finalWorld]. rewrite Htrace, Hnull. cbn [trace setTasks].
    split; [reflexivity|]. now rewrite artifacts_app.
Qed.

Lemma copyImage_null_blob_reaches_write_witness :
  (forall blob wd0, exists wd1,
     runCallback collapsedBrowser CopyBlobToClipboard blob wd0 =
     Fulfilled tt wd1 /\
     trace wd1 = (trace wd0 ++ [EvClipboardWrite [[("image/png", blob)]]])%list) /\
  exists wd',
    copyImage collapsedBrowser (Some 0) page = Fulfilled tt wd' /\
    trace (flushTasks collapsedBrowser wd') =
    [EvClipboardWrite [[("image/png", None)]]] /\
    artifacts (trace (flushTasks collapsedBrowser wd')) =
    [ClipboardPayload [[("image/png", None)]]].
Proof.
  exact (copyImage_null_blob_reaches_write collapsedBrowser (Some 0)
           emptyCanvas page eq_refl eq_refl eq_refl).
Defined.

(** *** downloadPdf *)

(** Binary64 multiplication commutes (NaN results are a single value). *)
Lemma float_mul_comm (a b : float) : (a * b)%float = (b * a)%float.
Proof.
  rewrite <- (SF2Prim_Prim2SF (a * b)), <- (SF2Prim_Prim2SF (b * a)).
  rewrite !mul_spec. f_equal.
  destruct (Prim2SF a) as [sa|sa| |sa ma ea],
           (Prim2SF b) as [sb|sb| |sb mb eb];
    unfold SF64mul, SFmul; try reflexivity;
    rewrite (xorb_comm sa sb); try reflexivity.
  now rewrite (Pos.mul_comm ma mb), (Z.add_comm ea eb).
Qed.

Lemma downloadPdf_run (P : Platform) (element : option Element)
    (canvas : Canvas) (properties : ImageProperties)
    (fileName : option string) (wd : World) :
  html2canvas P element = inr canvas ->
  getImageProperties P (toDataURL P canvas "image/png") = inr properties ->
  downloadPdf P element fileName wd =
  Fulfilled tt
    (emit wd
       (EvPdfSave
          (mkPdfDoc 1
             [mkPlacement 1 (toDataURL P canvas "image/png") "PNG"
                0%float 0%float (pageWidth P)
                (height properties * pageWidth P / width properties)%float])
          (orDefault "image" fileName ++ ".pdf"))).
Proof.
  intros Hok Hread. unfold downloadPdf, bind, rasterize, imageProperties.
  now rewrite Hok, Hread.
Qed.

(** When jsPDF cannot read the image, the call stops there: nothing is
    placed or saved. *)
Lemma downloadPdf_unreadable (P : Platform) (element : option Element)
    (canvas : Canvas) (reason : string) (fileName : option string)
    (wd : World) :
  html2canvas P element = inr canvas ->
  getImageProperties P (toDataURL P canvas "image/png") = inl reason ->
  downloadPdf P element fileName wd = Rejected reason wd.
Proof.
  intros Hok Hread. unfold downloadPdf, bind, rasterize, imageProperties.
  now rewrite Hok, Hread.
Qed.

(** C2: for an element that rasterises to an image jsPDF can read, of
    intrinsic width w > 0 and height h, the height downloadPdf gives the
    image on the page is, in binary64 arithmetic, the page width times h,
    divided by w. *)
Theorem downloadPdf_page_height (P : Platform) (element : option Element)
    (canvas : Canvas) (properties : ImageProperties)
    (fileName : option string) (wd : World) :
  html2canvas P element = inr canvas ->
  getImageProperties P (toDataURL P canvas "image/png") = inr properties ->
  (0 <? width properties)%float = true ->
  exists wd' doc name placement,
    downloadPdf P element fileName wd = Fulfilled tt wd' /\
    trace wd' = (trace wd ++ [EvPdfSave doc name])%list /\
    images doc = [placement] /\
    drawnHeight placement =
    (pageWidth P * height properties / width properties)%float.
Proof.
  intros Hok Hread _. do 4 eexists.
  split; [apply (downloadPdf_run P element canvas properties); assumption|].
  split; [reflexivity|]. split; [reflexivity|]. cbn [drawnHeight].
  now rewrite float_mul_comm.
Qed.

Lemma downloadPdf_page_height_witness :
  exists wd' doc name placement,
    downloadPdf browser (Some 0) None page = Fulfilled tt wd' /\
    trace wd' = [EvPdfSave doc name] /\
    images doc = [placement] /\
    drawnHeight placement =
    (0x1.a400cbe3c879ep+7 * 150 / 300)%float.
Proof.
  exact (downloadPdf_page_height browser (Some 0) sampleCanvas
           (mkImageProperties 300%float 150%float) None page
           eq_refl eq_refl eq_refl).
Defined.

(** The other way to associate the scaling, page width times the ratio
    height/width, is not the same binary64 value in general: a 210 x 297
    image on the 210.0015555555555 mm page. *)
Lemma ratio_first_rounds_differently :
  (0x1.a400cbe3c879ep+7 * 297 / 210)%float
  <> (0x1.a400cbe3c879ep+7 * (297 / 210))%float.
Proof.
  intros Heq.
  assert (Hb : PrimFloat.eqb (0x1.a400cbe3c879ep+7 * 297 / 210)%float
                 (0x1.a400cbe3c879ep+7 * (297 / 210))%float = true)
    by (rewrite <- Heq; reflexivity).
  vm_compute in Hb. discriminate Hb.
Qed.

(** C9, as the code has it: for an element that rasterises to an image
    jsPDF can read (of positive width), downloadPdf saves exactly one
    document, handing [pdf.save] the file name followed by ".pdf"
    ("image.pdf" without a file name); the document has one page and one
    image, the PNG data of the canvas placed on that page at offset (0, 0)
    with the page's width. *)
Theorem downloadPdf_single_page_file (P : Platform) (element : option Element)
    (canvas : Canvas) (properties : ImageProperties) (wd : World) :
  html2canvas P element = inr canvas ->
  getImageProperties P (toDataURL P canvas "image/png") = inr properties ->
  (0 <? width properties)%float = true ->
  forall fileName, exists wd' doc placement,
    downloadPdf P element fileName wd = Fulfilled tt wd' /\
    trace wd' =
    (trace wd ++ [EvPdfSave doc
                    match fileName with
                    | Some name => name ++ ".pdf"
                    | None => "image.pdf"
                    end])%list /\
    artifacts (trace wd') =
    (artifacts (trace wd)
       ++ [PdfFile match fileName with
                   | Some name => name ++ ".pdf"
                   | None => "image.pdf"
                   end doc])%list /\
    pages doc = 1 /\
    images doc = [placement] /\
    onPage placement = 1 /\
    imageData placement = toDataURL P canvas "image/png" /\
    format placement = "PNG" /\
    atX placement = 0%float /\ atY placement = 0%float /\
    drawnWidth placement = pageWidth P /\
    body wd' = body wd.
Proof.
  intros Hok Hread _ fileName. do 3 eexists.
  split; [apply (downloadPdf_run P element canvas properties); assumption|].
  split; [destruct fileName; reflexivity|].
  split; [cbn [trace emit]; rewrite artifacts_app; destruct fileName; reflexivity|].
  repeat split.
Qed.

Lemma downloadPdf_single_page_file_witness :
  exists wd' doc placement,
    downloadPdf browser (Some 0) (Some "QRCode") page = Fulfilled tt wd' /\
    trace wd' = [EvPdfSave doc "QRCode.pdf"] /\
    artifacts (trace wd') = [PdfFile "QRCode.pdf" doc] /\
    pages doc = 1 /\
    images doc = [placement] /\
    onPage placement = 1 /\
    imageData placement = "data:image/png;base64,qr" /\
    format placement = "PNG" /\
    atX placement = 0%float /\ atY placement = 0%float /\
    drawnWidth placement = 0x1.a400cbe3c879ep+7%float /\
    body wd' = [0; 1].
Proof.
  exact (downloadPdf_single_page_file browser (Some 0) sampleCanvas
           (mkImageProperties 300%float 150%float) page
           eq_refl eq_refl eq_refl (Some "QRCode")).
Defined.

(** C9, as stated, fails: not every element gets a document.  For an
    element without area the canvas serialises to "data:,", jsPDF cannot
    read it, and downloadPdf rejects at [getImageProperties]: nothing is
    placed and nothing is saved. *)
Lemma downloadPdf_empty_element_saves_nothing :
  exists reason,
    html2canvas collapsedBrowser (Some 0) = inr emptyCanvas /\
    downloadPdf collapsedBrowser (Some 0) (Some "QRCode") page =
    Rejected reason page /\
    artifacts (trace (finalWorld
                        (downloadPdf collapsedBrowser (Some 0) (Some "QRCode")
                           page))) = [].
Proof.
  eexists. split; [reflexivity|]. split.
  - apply (downloadPdf_unreadable collapsedBrowser (Some 0) emptyCanvas);
      reflexivity.
  - reflexivity.
Qed.

(** *** A missing element *)

(** Each function starts by awaiting the rasteriser and does nothing
    before: when the rasteriser rejects, the function rejects with the same
    reason and leaves the world as it found it. *)
Lemma rejection_propagates (P : Platform) (element : option Element)
    (reason : string) (wd : World) :
  html2canvas P element = inl reason ->
  copyImage P element wd = Rejected reason wd /\
  (forall fileName fileExtension,
     downloadImage P element fileName fileExtension wd = Rejected reason wd) /\
  (forall fileName, downloadPdf P element fileName wd = Rejected reason wd).
Proof.
  intros Hno. repeat split; intros;
    unfold copyImage, downloadImage, downloadPdf, bind, rasterize;
    now rewrite Hno.
Qed.

(** C8: where html2canvas rejects a null or undefined element, each of
    copyImage, downloadImage and downloadPdf called with such an element
    rejects with html2canvas's reason; no clipboard write, click, new
    window or save is made and no task is queued, so no artifact, empty or
    not, is produced. *)
Theorem null_element_fails (P : Platform) (reason : string) (wd : World) :
  html2canvas P None = inl reason ->
  copyImage P None wd = Rejected reason wd /\
  (forall fileName fileExtension,
     downloadImage P None fileName fileExtension wd = Rejected reason wd) /\
  (forall fileName, downloadPdf P None fileName wd = Rejected reason wd) /\
  artifacts (trace (finalWorld (copyImage P None wd))) = artifacts (trace wd) /\
  tasks (finalWorld (copyImage P None wd)) = tasks wd /\
  (forall fileName fileExtension,
     artifacts (trace (finalWorld
                         (downloadImage P None fileName fileExtension wd))) =
     artifacts (trace wd)) /\
  (forall fileName,
     artifacts (trace (finalWorld (downloadPdf P None fileName wd))) =
     artifacts (trace wd)).
Proof.
  intros Hno.
  destruct (rejection_propagates P None reason wd Hno) as (Hc & Hi & Hp).
  repeat split; intros; try assumption; try apply Hi; try apply Hp;
    rewrite ?Hc, ?Hi, ?Hp; reflexivity.
Qed.

Lemma null_element_fails_witness :
  copyImage browser None page =
    Rejected "Invalid element provided as first argument" page /\
  (forall fileName fileExtension,
     downloadImage browser None fileName fileExtension page =
     Rejected "Invalid element provided as first argument" page) /\
  (forall fileName, downloadPdf browser None fileName page =
     Rejected "Invalid element provided as first argument" page) /\
  artifacts (trace (finalWorld (copyImage browser None page))) = [] /\
  tasks (finalWorld (copyImage browser None page)) = [] /\
  (forall fileName fileExtension,
     artifacts (trace (finalWorld
                         (downloadImage browser None fileName fileExtension
                            page))) = []) /\
  (forall fileName,
     artifacts (trace (finalWorld (downloadPdf browser None fileName page))) =
     []).
Proof.
  exact (null_element_fails browser
           "Invalid element provided as first argument" page eq_refl).
Defined.

(** ** Further properties of the three functions *)

(** *** The event loop *)

(** A task leaves the document and the queue alone and adds its one
    write to the trace. *)
Lemma runTask_effect (P : Platform) (t : Task) (wd : World) :
  trace (runTask P t wd) = (trace wd ++ [taskWrite P t])%list /\
  body (runTask P t wd) = body wd /\
  nextNode (runTask P t wd) = nextNode wd /\
  tasks (runTask P t wd) = tasks wd.
Proof.
  destruct t as [canvas []]. unfold runTask.
  destruct (runCallback_writes P (blobOf P canvas) wd)
    as (wd' & Hrun & Htrace & Hbody & Hnext & Htasks & _).
  rewrite Hrun. cbn [taskWrite]. auto.
Qed.

Lemma runTasks_effect (P : Platform) (ts : list Task) (wd : World) :
  let wd' := fold_left (fun acc t => runTask P t acc) ts wd in
  trace wd' = (trace wd ++ map (taskWrite P) ts)%list /\
  body wd' = body wd /\ nextNode wd' = nextNode wd /\ tasks wd' = tasks wd.
Proof.
  revert wd. induction ts as [|t ts IH]; intros wd; cbn.
  - rewrite app_nil_r. auto.
  - destruct (IH (runTask P t wd)) as (Htrace & Hbody & Hnext & Htasks).
    destruct (runTask_effect P t wd) as (Ht & Hb & Hn & Hq).
    rewrite Htrace, Hbody, Hnext, Htasks, Ht, Hb, Hn, Hq, <- app_assoc.
    auto.
Qed.

Lemma count_writes (P : Platform) (ts : list Task) :
  count isClipboardWrite (map (taskWrite P) ts) = length ts /\
  count isDomMutation (map (taskWrite P) ts) = 0.
Proof.
  unfold count. induction ts as [|[canvas []] ts [IHw IHm]]; cbn; auto.
Qed.

Lemma flushTasks_idle (P : Platform) (wd : World) :
  tasks wd = [] -> flushTasks P wd = wd.
Proof.
  intros Hidle. unfold flushTasks. rewrite Hidle. cbn.
  destruct wd; cbn in *. now subst.
Qed.

(** X1: running the pending tasks makes one clipboard write per queued
    [toBlob] callback, in queue order, and nothing else: no child is
    appended or removed, the document is unchanged, and the queue is empty
    afterwards, so that running the loop again changes nothing. *)
Theorem flushTasks_one_write_per_task (P : Platform) (wd : World) :
  trace (flushTasks P wd) = (trace wd ++ map (taskWrite P) (tasks wd))%list /\
  count isClipboardWrite (map (taskWrite P) (tasks wd)) = length (tasks wd) /\
  count isDomMutation (map (taskWrite P) (tasks wd)) = 0 /\
  body (flushTasks P wd) = body wd /\
  nextNode (flushTasks P wd) = nextNode wd /\
  tasks (flushTasks P wd) = [] /\
  flushTasks P (flushTasks P wd) = flushTasks P wd.
Proof.
  destruct (runTasks_effect P (tasks wd) (setTasks wd []))
    as (Htrace & Hbody & Hnext & Htasks).
  fold (flushTasks P wd) in Htrace, Hbody, Hnext, Htasks.
  destruct (count_writes P (tasks wd)) as (Hw & Hm).
  repeat split; try assumption.
  now apply flushTasks_idle.
Qed.

(** *** Failure *)

(** X2: copyImage and downloadImage fail only with the rasteriser: each
    fulfils exactly when html2canvas fulfils for the element, so the
    [removeChild] of downloadImage never throws, whatever the document
    held before.  downloadPdf has a second point of failure: it fulfils
    only if html2canvas fulfils and jsPDF can read the image, and rejects
    with jsPDF's reason, nothing placed or saved, when it cannot. *)
Theorem fulfils_iff_rasterizes (P : Platform) (element : option Element)
    (wd : World) :
  let ok := match html2canvas P element with
            | inr _ => true
            | inl _ => false
            end in
  fulfilled (copyImage P element wd) = ok /\
  (forall fileName fileExtension,
     fulfilled (downloadImage P element fileName fileExtension wd) = ok) /\
  (forall fileName,
     fulfilled (downloadPdf P element fileName wd) = true ->
     exists canvas properties,
       html2canvas P element = inr canvas /\
       getImageProperties P (toDataURL P canvas "image/png") = inr properties) /\
  (forall fileName canvas reason,
     html2canvas P element = inr canvas ->
     getImageProperties P (toDataURL P canvas "image/png") = inl reason ->
     downloadPdf P element fileName wd = Rejected reason wd).
Proof.
  destruct (html2canvas P element) as [reason|canvas] eqn:Hr; cbn zeta.
  - destruct (rejection_propagates P element reason wd Hr) as (Hc & Hi & Hp).
    split; [|split; [|split]].
    + now rewrite Hc.
    + intros fileName fileExtension. now rewrite Hi.
    + intros fileName Hful. rewrite Hp in Hful. discriminate Hful.
    + intros fileName canvas reason' Hcanvas. discriminate Hcanvas.
  - split; [|split; [|split]].
    + now rewrite (copyImage_queues P element canvas wd Hr).
    + intros fileName fileExtension. destruct (anchorDownload P) eqn:Hsup.
      * now rewrite (downloadImage_anchor_path P element canvas Hr).
      * now rewrite (downloadImage_window_path P element canvas Hr).
    + intros fileName Hful.
      destruct (getImageProperties P (toDataURL P canvas "image/png"))
        as [reason|properties] eqn:Hread.
      * rewrite (downloadPdf_unreadable P element canvas reason fileName wd
                   Hr Hread) in Hful. discriminate Hful.
      * now exists canvas, properties.
    + intros fileName canvas' reason Hcanvas Hread.
      injection Hcanvas as <-.
      now apply (downloadPdf_unreadable P element canvas).
Qed.

(** *** The document *)

Lemma Forall_remove (Q : Node -> Prop) (n : Node) (l : list Node) :
  Forall Q l -> Forall Q (remove Nat.eq_dec n l).
Proof.
  rewrite !Forall_forall. intros HQ m Hin. apply HQ.
  now apply in_remove in Hin.
Qed.

(** X3: well-formedness of the document (every child of the body was
    created before) is kept by each of the three functions, whether they
    fulfil or reject, and by the event loop. *)
Theorem wellFormed_preserved (P : Platform) (element : option Element)
    (wd : World) :
  wellFormed wd ->
  wellFormed (finalWorld (copyImage P element wd)) /\
  (forall fileName fileExtension,
     wellFormed (finalWorld
                   (downloadImage P element fileName fileExtension wd))) /\
  (forall fileName, wellFormed (finalWorld (downloadPdf P element fileName wd))) /\
  wellFormed (flushTasks P wd).
Proof.
  intros Hwf. destruct (html2canvas P element) as [reason|canvas] eqn:Hr.
  - destruct (rejection_propagates P element reason wd Hr) as (Hc & Hi & Hp).
    repeat split; intros; rewrite ?Hc, ?Hi, ?Hp; try exact Hwf.
    unfold wellFormed.
    destruct (runTasks_effect P (tasks wd) (setTasks wd [])) as (_ & Hb & Hn & _).
    unfold flushTasks. now rewrite Hb, Hn.
  - repeat split; intros.
    + now rewrite (copyImage_queues P element canvas wd Hr).
    + destruct (anchorDownload P) eqn:Hsup.
      * rewrite (downloadImage_anchor_path P element canvas Hr) by exact Hsup.
        unfold wellFormed in *. cbn. apply Forall_remove.
        eapply Forall_impl; [|exact Hwf]. cbn. intros n Hn. lia.
      * rewrite (downloadImage_window_path P element canvas Hr) by exact Hsup.
        unfold wellFormed in *. cbn.
        eapply Forall_impl; [|exact Hwf]. cbn. intros n Hn. lia.
    + destruct (getImageProperties P (toDataURL P canvas "image/png"))
        as [reason|properties] eqn:Hread.
      * now rewrite (downloadPdf_unreadable P element canvas reason fileName
                       wd Hr Hread).
      * now rewrite (downloadPdf_run P element canvas properties fileName wd
                       Hr Hread).
    + unfold wellFormed.
      destruct (runTasks_effect P (tasks wd) (setTasks wd []))
        as (_ & Hb & Hn & _).
      unfold flushTasks. now rewrite Hb, Hn.
Qed.

Lemma wellFormed_preserved_witness :
  wellFormed (finalWorld (copyImage browser (Some 0) page)) /\
  (forall fileName fileExtension,
     wellFormed (finalWorld
                   (downloadImage browser (Some 0) fileName fileExtension
                      page))) /\
  (forall fileName,
     wellFormed (finalWorld (downloadPdf browser (Some 0) fileName page))) /\
  wellFormed (flushTasks browser page).
Proof.
  exact (wellFormed_preserved browser (Some 0) page page_wellFormed).
Defined.

(** *** downloadImage, further *)

(** X4: two downloadImage calls in a row, on the anchor path and from a
    well-formed document, download two files in call order, each through
    an anchor of its own (the two nodes differ), and leave the children of
    the body as they were. *)
Theorem downloadImage_twice (P : Platform) (e1 e2 : option Element)
    (c1 c2 : Canvas) (f1 f2 : option string) (x1 x2 : option FileExtension)
    (wd : World) :
  html2canvas P e1 = inr c1 ->
  html2canvas P e2 = inr c2 ->
  anchorDownload P = true ->
  wellFormed wd ->
  exists wd' link1 link2,
    (downloadImage P e1 f1 x1 ;; downloadImage P e2 f2 x2) wd =
    Fulfilled tt wd' /\
    node link1 <> node link2 /\
    trace wd' =
    (trace wd ++ [EvAppendChild (node link1); EvClick link1;
                  EvRemoveChild (node link1);
                  EvAppendChild (node link2); EvClick link2;
                  EvRemoveChild (node link2)])%list /\
    artifacts (trace wd') =
    (artifacts (trace wd)
       ++ [ImageFile (orDefault "image" f1 ++ "." ++ extension (orDefault png x1))
             (toDataURL P c1 ("image/" ++ extension (orDefault png x1)));
           ImageFile (orDefault "image" f2 ++ "." ++ extension (orDefault png x2))
             (toDataURL P c2 ("image/" ++ extension (orDefault png x2)))])%list /\
    body wd' = body wd.
Proof.
  intros H1 H2 Hsup Hwf.
  pose proof (wellFormed_fresh wd Hwf) as Hfresh.
  assert (Hfresh' : ~ In (S (nextNode wd)) (body wd)).
  { unfold wellFormed in Hwf. rewrite Forall_forall in Hwf.
    intros Hin. specialize (Hwf _ Hin). lia. }
  exists (mkWorld (body wd) (S (S (nextNode wd))) (clipboard wd)
            (trace wd ++ [EvAppendChild (nextNode wd);
                          EvClick (linkOf P c1 (nextNode wd) f1 x1);
                          EvRemoveChild (nextNode wd);
                          EvAppendChild (S (nextNode wd));
                          EvClick (linkOf P c2 (S (nextNode wd)) f2 x2);
                          EvRemoveChild (S (nextNode wd))])
            (tasks wd) (unhandled wd)).
  exists (linkOf P c1 (nextNode wd) f1 x1).
  exists (linkOf P c2 (S (nextNode wd)) f2 x2).
  split; [|split; [|split; [|split]]].
  - unfold bind at 1.
    rewrite (downloadImage_anchor_path P e1 c1 H1) by exact Hsup.
    rewrite (downloadImage_anchor_path P e2 c2 H2) by exact Hsup.
    cbn [body nextNode clipboard trace tasks unhandled].
    rewrite (remove_fresh _ _ Hfresh), (remove_fresh _ _ Hfresh').
    now rewrite <- app_assoc.
  - cbn. lia.
  - reflexivity.
  - cbn [trace]. rewrite artifacts_app. reflexivity.
  - reflexivity.
Qed.

Lemma downloadImage_twice_witness :
  exists wd' link1 link2,
    (downloadImage browser (Some 0) None None
     ;; downloadImage browser (Some 1) (Some "QRCode") (Some jpg)) page =
    Fulfilled tt wd' /\
    node link1 <> node link2 /\
    trace wd' =
    [EvAppendChild (node link1); EvClick link1; EvRemoveChild (node link1);
     EvAppendChild (node link2); EvClick link2; EvRemoveChild (node link2)] /\
    artifacts (trace wd') =
    [ImageFile "image.png" "data:image/png;base64,qr";
     ImageFile "QRCode.jpg" "data:image/png;base64,qr"] /\
    body wd' = [0; 1].
Proof.
  exact (downloadImage_twice browser (Some 0) (Some 1) sampleCanvas
           sampleCanvas None (Some "QRCode") None (Some jpg) page
           eq_refl eq_refl eq_refl page_wellFormed).
Defined.

(** X5: the fallback shows the same image: on a browser without the
    [download] attribute the URL opened in the new browsing context is the
    very data the anchor would have carried on the same browser with the
    attribute, and from a well-formed document both runs leave the same
    document behind: the anchor created on the fallback path is never
    attached. *)
Theorem downloadImage_fallback_same_data (P : Platform)
    (element : option Element) (canvas : Canvas) (fileName : option string)
    (fileExtension : option FileExtension) (wd : World) :
  html2canvas P element = inr canvas ->
  wellFormed wd ->
  exists wdA wdW data,
    downloadImage (withAnchorDownload P true) element fileName fileExtension wd
    = Fulfilled tt wdA /\
    downloadImage (withAnchorDownload P false) element fileName fileExtension wd
    = Fulfilled tt wdW /\
    artifacts (trace wdA) =
    (artifacts (trace wd)
       ++ [ImageFile (orDefault "image" fileName ++ "."
                        ++ extension (orDefault png fileExtension)) data])%list /\
    trace wdW = (trace wd ++ [EvWindowOpen data])%list /\
    artifacts (trace wdW) = artifacts (trace wd) /\
    body wdA = body wd /\ body wdW = body wd /\
    nextNode wdA = nextNode wdW /\
    clipboard wdA = clipboard wdW /\ tasks wdA = tasks wdW.
Proof.
  intros Hok Hwf. pose proof (wellFormed_fresh wd Hwf) as Hfresh.
  do 3 eexists. split; [|split].
  - apply (downloadImage_anchor_path (withAnchorDownload P true) element canvas);
      [exact Hok|reflexivity].
  - apply (downloadImage_window_path (withAnchorDownload P false) element
             canvas); [exact Hok|reflexivity].
  - cbn [trace body nextNode clipboard tasks].
    rewrite !artifacts_app, (remove_fresh _ _ Hfresh). cbn.
    rewrite app_nil_r. repeat split.
Qed.

Lemma downloadImage_fallback_same_data_witness :
  exists wdA wdW data,
    downloadImage (withAnchorDownload legacyBrowser true) (Some 0) None None
      page = Fulfilled tt wdA /\
    downloadImage (withAnchorDownload legacyBrowser false) (Some 0) None None
      page = Fulfilled tt wdW /\
    artifacts (trace wdA) = [ImageFile "image.png" data] /\
    trace wdW = [EvWindowOpen data] /\
    artifacts (trace wdW) = [] /\
    body wdA = [0; 1] /\ body wdW = [0; 1] /\
    nextNode wdA = nextNode wdW /\
    clipboard wdA = clipboard wdW /\ tasks wdA = tasks wdW.
Proof.
  exact (downloadImage_fallback_same_data legacyBrowser (Some 0) sampleCanvas
           None None page eq_refl page_wellFormed).
Defined.



(** X7: downloadImage has no guard on the canvas: for an element that
    rasterises to a canvas without pixels it still downloads a file under
    the usual name, and the file's data is the empty data URL "data:,"
    for either format. *)
Theorem downloadImage_empty_canvas (P : Platform) (element : option Element)
    (canvas : Canvas) (fileName : option string)
    (fileExtension : option FileExtension) (wd : World) :
  html2canvas P element = inr canvas ->
  hasPixels canvas = false ->
  anchorDownload P = true ->
  exists wd',
    downloadImage P element fileName fileExtension wd = Fulfilled tt wd' /\
    artifacts (trace wd') =
    (artifacts (trace wd)
       ++ [ImageFile (orDefault "image" fileName ++ "."
                        ++ extension (orDefault png fileExtension))
             "data:,"])%list.
Proof.
  intros Hok Hpx Hsup. eexists. split.
  - apply (downloadImage_anchor_path P element canvas Hok); exact Hsup.
  - cbn [trace]. rewrite artifacts_app. cbn. unfold toDataURL, serializable.
    now rewrite Hpx.
Qed.

Lemma downloadImage_empty_canvas_witness :
  exists wd',
    downloadImage collapsedBrowser (Some 0) None (Some jpg) page =
    Fulfilled tt wd' /\
    artifacts (trace wd') = [ImageFile "image.jpg" "data:,"].
Proof.
  exact (downloadImage_empty_canvas collapsedBrowser (Some 0) emptyCanvas None
           (Some jpg) page eq_refl eq_refl eq_refl).
Defined.

(** *** copyImage, further *)

(** X8: two copyImage calls one after the other, the callback of the
    first running while the second awaits the rasteriser: when the second
    call completes one write has been made and one callback is pending;
    when that has run too, with clipboard access granted and both canvases
    yielding a blob, two writes have been made in call order and the
    clipboard holds the image of the second call. *)
Theorem copyImage_twice_last_wins (P : Platform) (e1 e2 : option Element)
    (c1 c2 : Canvas) (b1 b2 : Blob) (wd : World) :
  html2canvas P e1 = inr c1 ->
  html2canvas P e2 = inr c2 ->
  blobOf P c1 = Some b1 ->
  blobOf P c2 = Some b2 ->
  clipboardPermitted P = true ->
  tasks wd = [] ->
  exists wd1 wd2,
    copyImage P e1 wd = Fulfilled tt wd1 /\
    copyImage P e2 (flushTasks P wd1) = Fulfilled tt wd2 /\
    trace wd2 =
    (trace wd ++ [EvClipboardWrite [[("image/png", Some b1)]]])%list /\
    clipboard wd2 = [[("image/png", Some b1)]] /\
    tasks wd2 = [BlobTask c2 CopyBlobToClipboard] /\
    trace (flushTasks P wd2) =
    (trace wd ++ [EvClipboardWrite [[("image/png", Some b1)]];
                  EvClipboardWrite [[("image/png", Some b2)]]])%list /\
    clipboard (flushTasks P wd2) = [[("image/png", Some b2)]] /\
    unhandled (flushTasks P wd2) = unhandled wd.
Proof.
  intros H1 H2 Hb1 Hb2 Hperm Hidle.
  eexists. eexists. split; [apply copyImage_queues; exact H1|].
  rewrite flush_after_copyImage by exact Hidle.
  unfold runCallback, bind, clipboardWrite, forget. rewrite Hperm, Hb1. cbn.
  split; [apply copyImage_queues; exact H2|]. cbn.
  unfold flushTasks. cbn [tasks setTasks fold_left].
  unfold runTask, runCallback, bind, clipboardWrite, forget.
  rewrite Hperm, Hb2. cbn. rewrite <- app_assoc. repeat split.
Qed.

Lemma copyImage_twice_last_wins_witness :
  exists wd1 wd2,
    copyImage browser (Some 0) page = Fulfilled tt wd1 /\
    copyImage browser (Some 1) (flushTasks browser wd1) = Fulfilled tt wd2 /\
    trace wd2 =
    [EvClipboardWrite [[("image/png", Some (mkBlob "image/png" "qr"))]]] /\
    clipboard wd2 = [[("image/png", Some (mkBlob "image/png" "qr"))]] /\
    tasks wd2 = [BlobTask sampleCanvas CopyBlobToClipboard] /\
    trace (flushTasks browser wd2) =
    [EvClipboardWrite [[("image/png", Some (mkBlob "image/png" "qr"))]];
     EvClipboardWrite [[("image/png", Some (mkBlob "image/png" "qr"))]]] /\
    clipboard (flushTasks browser wd2) =
    [[("image/png", Some (mkBlob "image/png" "qr"))]] /\
    unhandled (flushTasks browser wd2) = [].
Proof.
  exact (copyImage_twice_last_wins browser (Some 0) (Some 1) sampleCanvas
           sampleCanvas (mkBlob "image/png" "qr") (mkBlob "image/png" "qr")
           page eq_refl eq_refl eq_refl eq_refl eq_refl eq_refl).
Defined.

(** *** downloadPdf, further *)

(** X9: for a canvas the browser can serialise and an image jsPDF can
    read, the image data downloadPdf hands to [addImage] really is what
    the format argument "PNG" declares: it is tagged image/png on every
    browser, whatever other types its canvas encodes. *)
Theorem downloadPdf_data_is_png (P : Platform) (element : option Element)
    (canvas : Canvas) (properties : ImageProperties)
    (fileName : option string) (wd : World) :
  html2canvas P element = inr canvas ->
  serializable P canvas = true ->
  getImageProperties P (toDataURL P canvas "image/png") = inr properties ->
  exists wd' doc name placement,
    downloadPdf P element fileName wd = Fulfilled tt wd' /\
    trace wd' = (trace wd ++ [EvPdfSave doc name])%list /\
    images doc = [placement] /\
    format placement = "PNG" /\
    formatTag (imageData placement) = Some "image/png".
Proof.
  intros Hok Hpx Hread. do 4 eexists.
  split; [apply (downloadPdf_run P element canvas properties); assumption|].
  repeat split. cbn [imageData]. unfold toDataURL. now rewrite Hpx.
Qed.

Lemma downloadPdf_data_is_png_witness :
  exists wd' doc name placement,
    downloadPdf browser (Some 0) None page = Fulfilled tt wd' /\
    trace wd' = [EvPdfSave doc name] /\
    images doc = [placement] /\
    format placement = "PNG" /\
    formatTag (imageData placement) = Some "image/png".
Proof.
  exact (downloadPdf_data_is_png browser (Some 0) sampleCanvas
           (mkImageProperties 300%float 150%float) None page
           eq_refl eq_refl eq_refl).
Defined.

(** X10: downloadPdf has no guard on the canvas: when the canvas has no
    pixels or is beyond the size the browser can serialise, the data is
    the empty data URL; where jsPDF refuses that, downloadPdf rejects with
    jsPDF's reason at [getImageProperties], before anything is placed or
    saved. *)
Theorem downloadPdf_unserializable_rejects (P : Platform)
    (element : option Element) (canvas : Canvas) (reason : string)
    (fileName : option string) (wd : World) :
  html2canvas P element = inr canvas ->
  serializable P canvas = false ->
  getImageProperties P "data:," = inl reason ->
  toDataURL P canvas "image/png" = "data:," /\
  downloadPdf P element fileName wd = Rejected reason wd /\
  artifacts (trace (finalWorld (downloadPdf P element fileName wd))) =
  artifacts (trace wd).
Proof.
  intros Hok Hpx Hread.
  assert (Hdata : toDataURL P canvas "image/png" = "data:,")
    by (unfold toDataURL; now rewrite Hpx).
  assert (Hrej : downloadPdf P element fileName wd = Rejected reason wd)
    by (apply (downloadPdf_unreadable P element canvas); [|rewrite Hdata];
        assumption).
  split; [exact Hdata|]. split; [exact Hrej|]. now rewrite Hrej.
Qed.

Lemma downloadPdf_unserializable_rejects_witness :
  toDataURL tallBrowser tallCanvas "image/png" = "data:," /\
  downloadPdf tallBrowser (Some 0) None page =
  Rejected "addImage does not support files of type 'UNKNOWN'" page /\
  artifacts (trace (finalWorld (downloadPdf tallBrowser (Some 0) None page)))
  = [].
Proof.
  exact (downloadPdf_unserializable_rejects tallBrowser (Some 0) tallCanvas
           "addImage does not support files of type 'UNKNOWN'" None page
           eq_refl eq_refl eq_refl).
Defined.

(** *** Rejection, for any element *)

(** X11: a rejection of the rasteriser, for whatever element, is passed on
    unchanged and before anything else happened: each of the three
    functions rejects with html2canvas's reason and leaves the world,
    task queue included, exactly as it found it. *)
Theorem rasterizer_rejection_is_atomic (P : Platform)
    (element : option Element) (reason : string) (wd : World) :
  html2canvas P element = inl reason ->
  copyImage P element wd = Rejected reason wd /\
  (forall fileName fileExtension,
     downloadImage P element fileName fileExtension wd = Rejected reason wd) /\
  (forall fileName, downloadPdf P element fileName wd = Rejected reason wd) /\
  flushTasks P (finalWorld (copyImage P element wd)) = flushTasks P wd.
Proof.
  intros Hno.
  destruct (rejection_propagates P element reason wd Hno) as (Hc & Hi & Hp).
  repeat split; try assumption. now rewrite Hc.
Qed.

Lemma rasterizer_rejection_is_atomic_witness :
  copyImage strictBrowser (Some 7) page =
    Rejected "Unable to find element in cloned iframe" page /\
  (forall fileName fileExtension,
     downloadImage strictBrowser (Some 7) fileName fileExtension page =
     Rejected "Unable to find element in cloned iframe" page) /\
  (forall fileName,
     downloadPdf strictBrowser (Some 7) fileName page =
     Rejected "Unable to find element in cloned iframe" page) /\
  flushTasks strictBrowser (finalWorld (copyImage strictBrowser (Some 7) page))
  = flushTasks strictBrowser page.
Proof.
  exact (rasterizer_rejection_is_atomic strictBrowser (Some 7)
           "Unable to find element in cloned iframe" page eq_refl).
Defined.
